(** * Session bootstrapper of the voice agent (src/voice-agent/agent.ts)

    The module exports one agent definition whose [entry] function is run by
    the hosting framework for every job, and ends with a guarded call of the
    framework's CLI runner.  Everything [entry] does is a call into the
    framework or into a provider plugin, so the embedding is a small free
    monad over those calls: a program is a tree of external operations and
    of [try] blocks, and a run threads an arbitrary world (the framework,
    the plugins, the network) that answers each operation by returning a
    value, by throwing, or not at all.  The run records every operation
    together with its answer.

    [defineAgent] only wraps the object that holds [entry], and the imports
    have no part in what follows; neither is modelled. *)

From Stdlib Require Import String List Bool Arith Lia.
Import ListNotations.
Local Open Scope string_scope.
Local Open Scope list_scope.

(** ** Objects owned by the framework and the plugins

    They are opaque to the module; only their identity matters here. *)

Inductive Room : Type := RoomRef (id : nat).
Inductive Promise : Type := PromiseRef (id : nat).
Inductive Agent : Type := AgentRef (id : nat).
Inductive STT : Type := STTRef (id : nat).
Inductive LLM : Type := LLMRef (id : nat).
Inductive TTS : Type := TTSRef (id : nat).
Inductive AgentSession : Type := AgentSessionRef (id : nat).
Inductive SpeechHandle : Type := SpeechHandleRef (id : nat).

(** What a failing call throws, or a rejected promise carries. *)
Inductive JsError : Type := JsErr (message : string).

(** [ctx: JobContext]: the code uses [ctx.connect()] and [ctx.room]. *)
Record JobContext : Type := { ctx_id : nat; room : Room }.

(** ** Option objects passed to the constructors and to [start] *)

(** [{ instructions: ... }] of [new voice.Agent]. *)
Record AgentOptions : Type := { instructions : string }.

(** [{ model: ... }] of [new openai.LLM]. *)
Record LLMOptions : Type := { model : string }.

(** An option object of [openai.STT] or [elevenlabs.TTS]: its keys and
    values.  The module never builds one. *)
Definition PluginOptions : Type := list (string * string).

(** [{ stt, llm, tts }] of [new voice.AgentSession]; a key that is left out
    is [None]. *)
Record AgentSessionOptions : Type :=
  { stt : option STT; llm : option LLM; tts : option TTS }.

(** [{ agent, room }] of [session.start]. *)
Record StartOptions : Type := { agent : Agent; start_room : Room }.

(** [{ agent }] of [new ServerOptions]: the path of the agent file. *)
Record ServerOptions : Type := { agent_file : string }.

(** ** External operations

    A constructor argument of type [option _] is [None] when the call has no
    argument at all, as in [new openai.STT()]. *)

Inductive op : Type :=
| CtxConnect (ctx : JobContext)                       (* ctx.connect() *)
| Await (p : Promise)                                 (* await p *)
| NewAgent (o : AgentOptions)                         (* new voice.Agent(o) *)
| NewSTT (o : option PluginOptions)                   (* new openai.STT(..) *)
| NewLLM (o : option LLMOptions)                      (* new openai.LLM(..) *)
| NewTTS (o : option PluginOptions)                   (* new elevenlabs.TTS(..) *)
| NewAgentSession (o : AgentSessionOptions)           (* new voice.AgentSession(o) *)
| SessionStart (s : AgentSession) (o : StartOptions)  (* s.start(o) *)
| SessionSay (s : AgentSession) (text : string).      (* s.say(text) *)

(** What an operation gives back when it does not throw. *)
Definition res (o : op) : Type :=
  match o with
  | CtxConnect _ => Promise
  | Await _ => unit
  | NewAgent _ => Agent
  | NewSTT _ => STT
  | NewLLM _ => LLM
  | NewTTS _ => TTS
  | NewAgentSession _ => AgentSession
  | SessionStart _ _ => Promise
  | SessionSay _ _ => SpeechHandle
  end.

(** How an operation ends: it returns (an awaited promise is fulfilled), it
    throws (an awaited promise is rejected), or it never does either: the
    call does not come back, or the awaited promise never settles. *)
Inductive outcome (A : Type) : Type :=
| Returned (a : A)
| Threw (e : JsError)
| Pending.
Arguments Returned {A} a.
Arguments Threw {A} e.
Arguments Pending {A}.

Definition returned {A : Type} (x : outcome A) : bool :=
  match x with Returned _ => true | _ => false end.

(** ** Programs

    The statements of an async function body: return a value, perform an
    external operation and go on with its result, or run a block under
    [try { .. } catch (e) { .. }] and go on with the value of whichever of
    the two blocks completed.  [agent.ts] has no [try]; the constructor is
    there so that whether [entry] handles a failure is a property of
    [entry] and not of the language it is written in. *)

Inductive Prog (R : Type) : Type :=
| Ret (r : R)
| Vis (o : op) (k : res o -> Prog R)
| Try (X : Type) (body : Prog X) (handler : JsError -> Prog X) (k : X -> Prog R).
Arguments Ret {R} r.
Arguments Vis {R} o k.
Arguments Try {R X} body handler k.

Fixpoint bind {A B : Type} (m : Prog A) (f : A -> Prog B) : Prog B :=
  match m with
  | Ret a => f a
  | Vis o k => Vis o (fun x => bind (k x) f)
  | Try body handler k => Try body handler (fun x => bind (k x) f)
  end.

(** A program with no [try] on any of its paths. *)
Inductive handler_free : forall R : Type, Prog R -> Prop :=
| hf_ret (R : Type) (r : R) : handler_free R (Ret r)
| hf_vis (R : Type) (o : op) (k : res o -> Prog R) :
    (forall x : res o, handler_free R (k x)) -> handler_free R (Vis o k).
Arguments handler_free {R} p.

Definition call (o : op) : Prog (res o) := Vis o (fun x => Ret x).

Notation "'let*' x ':=' m 'in' k" := (bind m (fun x => k))
  (at level 10, x name, m at level 100, k at level 200).
Notation "m ';;' k" := (bind m (fun _ => k))
  (at level 100, k at level 200, right associativity).

(** ** The entry function, lines 24-51

    [await e] is the call [e] followed by [Await] on the promise it returns.
    The arguments of [new voice.AgentSession] are evaluated left to right
    before the constructor runs.  The value of [session.say] is dropped and
    the function falls off its end. *)

Definition entry (ctx : JobContext) : Prog unit :=
  let* connecting := call (CtxConnect ctx) in
  call (Await connecting) ;;
  let* agent :=
    call (NewAgent
            {| instructions :=
                 "You are a helpful voice assistant. Keep responses concise." |}) in
  let* stt := call (NewSTT None) in
  let* llm := call (NewLLM (Some {| model := "gpt-4" |})) in
  let* tts := call (NewTTS None) in
  let* session :=
    call (NewAgentSession {| stt := Some stt; llm := Some llm; tts := Some tts |}) in
  let* starting :=
    call (SessionStart session {| agent := agent; start_room := room ctx |}) in
  call (Await starting) ;;
  call (SessionSay session "Hello! How can I help you today?") ;;
  Ret tt.

(** ** The module's top level, lines 56-77

    The guard compares the module's own URL with the text
    [file://${process.argv[1]}]; a missing [process.argv[1]] is rendered as
    [undefined] by the template literal.  [fileURLToPath] belongs to
    [node:url] and is a parameter here.  The result is [Some o] when
    [cli.runApp(new ServerOptions(o))] is reached and [None] when the guard
    skips it. *)

Record ModuleEnv : Type :=
  { import_meta_url : string;      (* import.meta.url *)
    argv : list string }.          (* process.argv *)

Definition argv1_text (env : ModuleEnv) : string :=
  match nth_error (argv env) 1 with
  | Some path => path
  | None => "undefined"
  end.

Definition is_main (env : ModuleEnv) : bool :=
  String.eqb (import_meta_url env) ("file://" ++ argv1_text env)%string.

Section TopLevel.
Variable fileURLToPath : string -> outcome string.

Definition main (env : ModuleEnv) : outcome (option ServerOptions) :=
  if is_main env then
    match fileURLToPath (import_meta_url env) with
    | Returned path => Returned (Some {| agent_file := path |})
    | Threw e => Threw e
    | Pending => Pending
    end
  else Returned None.
End TopLevel.

(** ** Runs

    The log is untyped: every answer is injected into [value]. *)

Inductive value : Type :=
| VUndefined
| VPromise (p : Promise)
| VAgent (a : Agent)
| VSTT (s : STT)
| VLLM (l : LLM)
| VTTS (t : TTS)
| VSession (s : AgentSession)
| VSpeech (h : SpeechHandle).

Definition inj (o : op) : res o -> value :=
  match o return res o -> value with
  | CtxConnect _ => VPromise
  | Await _ => fun _ => VUndefined
  | NewAgent _ => VAgent
  | NewSTT _ => VSTT
  | NewLLM _ => VLLM
  | NewTTS _ => VTTS
  | NewAgentSession _ => VSession
  | SessionStart _ _ => VPromise
  | SessionSay _ _ => VSpeech
  end.

Record event : Type := Ev { ev_op : op; ev_out : outcome value }.

(** What a run leaves: the log, the state of the promise of the async
    function ([Returned]: fulfilled; [Threw]: rejected; [Pending]: never
    settled), and the world. *)
Record result (W R : Type) : Type :=
  { trace : list event; settled : outcome R; world : W }.
Arguments trace {W R} r.
Arguments settled {W R} r.
Arguments world {W R} r.

(** [logged ev r]: the run [r] with the event [ev] put in front of its log. *)
Definition logged {W R : Type} (ev : event) (r : result W R) : result W R :=
  {| trace := ev :: trace r; settled := settled r; world := world r |}.

(** [after tr r]: the run [r] with the events [tr] put in front of its
    log. *)
Definition after {W R : Type} (tr : list event) (r : result W R) : result W R :=
  {| trace := tr ++ trace r; settled := settled r; world := world r |}.

Section Run.
Variable W : Type.
Variable respond : forall o : op, W -> outcome (res o) * W.

(** An operation that throws ends the block it is in; one that never
    answers leaves the run suspended for good.  What a [try] block throws
    goes to its handler, and what the handler throws goes on outwards. *)
Fixpoint run {R : Type} (p : Prog R) (w : W) : result W R :=
  match p with
  | Ret r => {| trace := []; settled := Returned r; world := w |}
  | Vis o k =>
      match respond o w with
      | (Returned x, w') => logged (Ev o (Returned (inj o x))) (run (k x) w')
      | (Threw e, w') =>
          {| trace := [Ev o (Threw e)]; settled := Threw e; world := w' |}
      | (Pending, w') =>
          {| trace := [Ev o Pending]; settled := Pending; world := w' |}
      end
  | Try body handler k =>
      let b := run body w in
      match settled b with
      | Returned x => after (trace b) (run (k x) (world b))
      | Threw e =>
          let h := run (handler e) (world b) in
          match settled h with
          | Returned x => after (trace b ++ trace h) (run (k x) (world h))
          | Threw e' =>
              {| trace := trace b ++ trace h; settled := Threw e';
                 world := world h |}
          | Pending =>
              {| trace := trace b ++ trace h; settled := Pending;
                 world := world h |}
          end
      | Pending => {| trace := trace b; settled := Pending; world := world b |}
      end
  end.

(** The log and the outcome of [entry] run on [ctx] from the world [w]. *)
Definition log_of (ctx : JobContext) (w : W) : list event :=
  trace (run (entry ctx) w).

Definition outcome_of (ctx : JobContext) (w : W) : outcome unit :=
  settled (run (entry ctx) w).
End Run.
Arguments run {W} respond {R} p w.
Arguments log_of {W} respond ctx w.
Arguments outcome_of {W} respond ctx w.

(** ** The complete run

    [handles] names the objects the world hands out during a run in which
    nothing throws, and [answers] is the log of that run: the ten
    operations of [entry] in program order, each with its answer. *)

Record handles : Type :=
  { connecting : Promise;
    the_agent : Agent;
    the_stt : STT;
    the_llm : LLM;
    the_tts : TTS;
    the_session : AgentSession;
    starting : Promise;
    the_speech : SpeechHandle }.

Definition answers (ctx : JobContext) (h : handles) : list event :=
  [ Ev (CtxConnect ctx) (Returned (VPromise (connecting h)));
    Ev (Await (connecting h)) (Returned VUndefined);
    Ev (NewAgent
          {| instructions :=
               "You are a helpful voice assistant. Keep responses concise." |})
       (Returned (VAgent (the_agent h)));
    Ev (NewSTT None) (Returned (VSTT (the_stt h)));
    Ev (NewLLM (Some {| model := "gpt-4" |})) (Returned (VLLM (the_llm h)));
    Ev (NewTTS None) (Returned (VTTS (the_tts h)));
    Ev (NewAgentSession
          {| stt := Some (the_stt h); llm := Some (the_llm h);
             tts := Some (the_tts h) |})
       (Returned (VSession (the_session h)));
    Ev (SessionStart (the_session h)
          {| agent := the_agent h; start_room := room ctx |})
       (Returned (VPromise (starting h)));
    Ev (Await (starting h)) (Returned VUndefined);
    Ev (SessionSay (the_session h) "Hello! How can I help you today?")
       (Returned (VSpeech (the_speech h))) ].

Definition script (ctx : JobContext) (h : handles) : list op :=
  map ev_op (answers ctx h).

(** The three ways a run of [entry] can go: to the end, up to the first
    operation that throws, or up to the first operation that never
    answers. *)
Inductive entry_run (ctx : JobContext) (h : handles)
  : list event -> outcome unit -> Prop :=
| run_completed :
    entry_run ctx h (answers ctx h) (Returned tt)
| run_aborted (n : nat) (o : op) (e : JsError) :
    nth_error (script ctx h) n = Some o ->
    entry_run ctx h (firstn n (answers ctx h) ++ [Ev o (Threw e)]) (Threw e)
| run_suspended (n : nat) (o : op) :
    nth_error (script ctx h) n = Some o ->
    entry_run ctx h (firstn n (answers ctx h) ++ [Ev o Pending]) Pending.


(** ** Observations on a log *)

Definition ops (tr : list event) : list op := map ev_op tr.

Definition is_connect (o : op) : bool :=
  match o with CtxConnect _ => true | _ => false end.

Definition is_await (o : op) : bool :=
  match o with Await _ => true | _ => false end.

Definition is_agent (o : op) : bool :=
  match o with NewAgent _ => true | _ => false end.

Definition is_provider (o : op) : bool :=
  match o with NewSTT _ | NewLLM _ | NewTTS _ => true | _ => false end.

Definition is_session (o : op) : bool :=
  match o with NewAgentSession _ => true | _ => false end.

Definition is_say (o : op) : bool :=
  match o with SessionSay _ _ => true | _ => false end.

(** How many operations of the log are of the kind [f]. *)
Definition count (f : op -> bool) (tr : list event) : nat :=
  length (filter f (ops tr)).

(** The configuration values a log shows: the instructions given to agents,
    the model names given to language models, the texts given to [say]. *)
Definition instructions_in (tr : list event) : list string :=
  flat_map (fun o => match o with NewAgent a => [instructions a] | _ => [] end)
           (ops tr).

Definition models_in (tr : list event) : list string :=
  flat_map (fun o => match o with
                     | NewLLM (Some l) => [model l]
                     | _ => []
                     end) (ops tr).

Definition greetings_in (tr : list event) : list string :=
  flat_map (fun o => match o with SessionSay _ t => [t] | _ => [] end) (ops tr).

(** Every operation of the log returned. *)
Definition all_returned (tr : list event) : bool :=
  forallb (fun ev => returned (ev_out ev)) tr.

(** The log shows the whole bootstrap sequence, every step done. *)
Definition performs_all_steps (ctx : JobContext) (tr : list event) : Prop :=
  exists h : handles, tr = answers ctx h.

(** The log is the sequence cut at its operation numbered [n] (from 0),
    which ended with [out]. *)
Definition stops_at (ctx : JobContext) (h : handles) (n : nat)
    (out : outcome value) (tr : list event) : Prop :=
  exists o : op,
    nth_error (script ctx h) n = Some o /\
    tr = firstn n (answers ctx h) ++ [Ev o out].

(** ** Concrete worlds, contexts and module environments

    The state of each world is the number of operations answered so far.
    [obliging] answers every operation with a fresh object;
    [failing_at k] does the same except that the operation numbered [k]
    (from 0) throws, and [hanging_at k] except that it never answers. *)

Definition fresh (o : op) (n : nat) : res o :=
  match o return res o with
  | CtxConnect _ => PromiseRef n
  | Await _ => tt
  | NewAgent _ => AgentRef n
  | NewSTT _ => STTRef n
  | NewLLM _ => LLMRef n
  | NewTTS _ => TTSRef n
  | NewAgentSession _ => AgentSessionRef n
  | SessionStart _ _ => PromiseRef n
  | SessionSay _ _ => SpeechHandleRef n
  end.

Definition obliging (o : op) (n : nat) : outcome (res o) * nat :=
  (Returned (fresh o n), S n).

Definition failing_at (k : nat) (o : op) (n : nat) : outcome (res o) * nat :=
  if Nat.eqb n k then (Threw (JsErr "unavailable"), S n)
  else (Returned (fresh o n), S n).

Definition hanging_at (k : nat) (o : op) (n : nat) : outcome (res o) * nat :=
  if Nat.eqb n k then (Pending, S n) else (Returned (fresh o n), S n).

Definition ctx0 : JobContext := {| ctx_id := 1; room := RoomRef 7 |}.
Definition ctx1 : JobContext := {| ctx_id := 2; room := RoomRef 9 |}.

(** The objects [obliging] hands out when started from 0. *)
Definition h0 : handles :=
  {| connecting := PromiseRef 0; the_agent := AgentRef 2; the_stt := STTRef 3;
     the_llm := LLMRef 4; the_tts := TTSRef 5;
     the_session := AgentSessionRef 6; starting := PromiseRef 7;
     the_speech := SpeechHandleRef 9 |}.

(** Three events of the run of [obliging] on [ctx0]. *)
Definition session0 : event :=
  Ev (NewAgentSession
        {| stt := Some (STTRef 3); llm := Some (LLMRef 4); tts := Some (TTSRef 5) |})
     (Returned (VSession (AgentSessionRef 6))).

Definition start0 : event :=
  Ev (SessionStart (AgentSessionRef 6)
        {| agent := AgentRef 2; start_room := RoomRef 7 |})
     (Returned (VPromise (PromiseRef 7))).

Definition say0 : event :=
  Ev (SessionSay (AgentSessionRef 6) "Hello! How can I help you today?")
     (Returned (VSpeech (SpeechHandleRef 9))).

(** The module run as the program's entry file from a plain path: Node
    gives the module the URL of that path. *)
Definition plain_path_env : ModuleEnv :=
  {| import_meta_url := "file:///srv/agent/agent.ts";
     argv := ["/usr/bin/node"; "/srv/agent/agent.ts"; "dev"] |}.

(** The module run as the program's entry file from a directory whose name
    has a space: Node percent-encodes the space in [import.meta.url] and
    leaves it as it is in [process.argv[1]]. *)
Definition encoded_path_env : ModuleEnv :=
  {| import_meta_url := "file:///srv/voice%20agent/agent.ts";
     argv := ["/usr/bin/node"; "/srv/voice agent/agent.ts"; "dev"] |}.

(** The module imported by another entry file. *)
Definition imported_env : ModuleEnv :=
  {| import_meta_url := "file:///srv/agent/agent.ts";
     argv := ["/usr/bin/node"; "/srv/agent/server.ts"] |}.

(** [s.start(..)] calls. *)
Definition is_start (o : op) : bool :=
  match o with SessionStart _ _ => true | _ => false end.

(** The module imported by a program started without a script path, as
    under [node -e]: [process.argv] has one entry, and the template literal
    renders the missing second one as [undefined]. *)
Definition bare_env : ModuleEnv :=
  {| import_meta_url := "file:///srv/agent/agent.ts"; argv := ["/usr/bin/node"] |}.

(** * Properties *)

Example obliging_run :
  run obliging (entry ctx0) 0 =
  {| trace := answers ctx0 h0; settled := Returned tt; world := 10 |}.
Proof. reflexivity. Qed.

Example refused_connection_run :
  run (failing_at 1) (entry ctx0) 0 =
  {| trace := [ Ev (CtxConnect ctx0) (Returned (VPromise (PromiseRef 0)));
                Ev (Await (PromiseRef 0)) (Threw (JsErr "unavailable")) ];
     settled := Threw (JsErr "unavailable"); world := 2 |}.
Proof. reflexivity. Qed.

Example unsettled_start_run :
  run (hanging_at 8) (entry ctx0) 0 =
  {| trace := firstn 8 (answers ctx0 h0) ++ [Ev (Await (PromiseRef 7)) Pending];
     settled := Pending; world := 9 |}.
Proof. reflexivity. Qed.

(** A body that is not the one of [agent.ts]: it connects under a [try]
    and connects again in the handler.  Where the first call throws it goes
    on: the thrown error is neither the last event nor the outcome. *)
Example retrying_body_recovers :
  ~ handler_free (Try (call (CtxConnect ctx0))
                      (fun _ => call (CtxConnect ctx0))
                      (fun _ => Ret tt)) /\
  run (failing_at 0)
      (Try (call (CtxConnect ctx0)) (fun _ => call (CtxConnect ctx0))
           (fun _ => Ret tt)) 0 =
  {| trace := [ Ev (CtxConnect ctx0) (Threw (JsErr "unavailable"));
                Ev (CtxConnect ctx0) (Returned (VPromise (PromiseRef 1))) ];
     settled := Returned tt; world := 2 |}.
Proof.
  split; [intros H; inversion H | reflexivity].
Qed.

Section AnyWorld.
Variable W : Type.
Variable respond : forall o : op, W -> outcome (res o) * W.

Local Ltac answer x w' :=
  match goal with
  | |- context [respond ?o ?w] =>
      destruct (respond o w) as [[x| |] w']; cbn [trace settled logged inj]
  end.

Local Tactic Notation "stopped" constr(k) "with" constr(h) :=
  exists h;
  match goal with
  | |- entry_run ?c _ ?tr _ =>
      match eval cbv in (last tr (Ev (CtxConnect c) (Returned VUndefined))) with
      | Ev ?o (Threw ?e) => exact (run_aborted c h k o e eq_refl)
      | Ev ?o Pending => exact (run_suspended c h k o eq_refl)
      end
  end.

(** Every run of [entry], in every world, has one of the three shapes. *)
Lemma entry_run_shape (ctx : JobContext) (w : W) :
  exists h : handles,
    entry_run ctx h (log_of respond ctx w) (outcome_of respond ctx w).
Proof.
  pose (p0 := PromiseRef 0). pose (a0 := AgentRef 0). pose (s0 := STTRef 0).
  pose (l0 := LLMRef 0). pose (t0 := TTSRef 0).
  pose (ss0 := AgentSessionRef 0). pose (sh0 := SpeechHandleRef 0).
  unfold log_of, outcome_of, entry; cbn [bind call run].
  answer p w1.
  2, 3: stopped 0 with (Build_handles p0 a0 s0 l0 t0 ss0 p0 sh0).
  answer u w2.
  2, 3: stopped 1 with (Build_handles p a0 s0 l0 t0 ss0 p0 sh0).
  answer a w3.
  2, 3: stopped 2 with (Build_handles p a0 s0 l0 t0 ss0 p0 sh0).
  answer s w4.
  2, 3: stopped 3 with (Build_handles p a s0 l0 t0 ss0 p0 sh0).
  answer l w5.
  2, 3: stopped 4 with (Build_handles p a s l0 t0 ss0 p0 sh0).
  answer t w6.
  2, 3: stopped 5 with (Build_handles p a s l t0 ss0 p0 sh0).
  answer ss w7.
  2, 3: stopped 6 with (Build_handles p a s l t ss0 p0 sh0).
  answer q w8.
  2, 3: stopped 7 with (Build_handles p a s l t ss p0 sh0).
  answer v w9.
  2, 3: stopped 8 with (Build_handles p a s l t ss q sh0).
  answer sh w10.
  2, 3: stopped 9 with (Build_handles p a s l t ss q sh0).
  exists (Build_handles p a s l t ss q sh). apply run_completed.
Qed.
End AnyWorld.

(** The same, as a case distinction on the log. *)
Lemma entry_run_cases (W : Type) (respond : forall o : op, W -> outcome (res o) * W)
    (ctx : JobContext) (w : W) :
  exists h : handles,
    (log_of respond ctx w = answers ctx h /\
     outcome_of respond ctx w = Returned tt) \/
    (exists (n : nat) (o : op) (e : JsError),
        nth_error (script ctx h) n = Some o /\
        log_of respond ctx w = firstn n (answers ctx h) ++ [Ev o (Threw e)] /\
        outcome_of respond ctx w = Threw e) \/
    (exists (n : nat) (o : op),
        nth_error (script ctx h) n = Some o /\
        log_of respond ctx w = firstn n (answers ctx h) ++ [Ev o Pending] /\
        outcome_of respond ctx w = Pending).
Proof.
  destruct (entry_run_shape W respond ctx w) as [h H].
  exists h.
  remember (log_of respond ctx w) as tr eqn:Htr; clear Htr.
  remember (outcome_of respond ctx w) as out eqn:Hout; clear Hout.
  destruct H as [| n o e Hn | n o Hn].
  - left. split; reflexivity.
  - right; left. exists n, o, e. repeat split; assumption.
  - right; right. exists n, o. repeat split; assumption.
Qed.

(** Proof steps shared by the properties below: enumerate the shapes of a
    log, the members of a log, and the places where a log can be cut in
    two. *)

Ltac peel n Hn Ht :=
  cbn in Hn;
  lazymatch type of Hn with
  | nth_error [] _ = Some _ => destruct n; discriminate Hn
  | _ => destruct n as [|n];
         [ cbn in Hn; injection Hn as <-; cbn [firstn app answers] in Ht
         | peel n Hn Ht ]
  end.

Ltac run_cases respond ctx w h Ht Hs :=
  let n := fresh "n" in
  let o := fresh "o" in
  let e := fresh "e" in
  let Hn := fresh "Hn" in
  destruct (entry_run_cases _ respond ctx w)
    as [h [[Ht Hs] | [(n & o & e & Hn & Ht & Hs) | (n & o & Hn & Ht & Hs)]]];
  [ unfold answers in Ht | peel n Hn Ht | peel n Hn Ht ].

Ltac each_member H tac :=
  cbn in H;
  repeat lazymatch type of H with
         | _ \/ _ => destruct H as [H|H]; [ tac | ]
         end;
  try (now destruct H).

Ltac cut_log H tac :=
  lazymatch type of H with
  | [] = ?pre ++ _ :: _ => destruct pre; discriminate H
  | _ :: _ = ?pre ++ _ :: _ =>
      let x := fresh "x" in
      let Hx := fresh "Hx" in
      destruct pre as [|x pre]; cbn in H;
      [ injection H as Hx H; subst; tac
      | injection H as Hx H; subst x; cut_log H tac ]
  end.

Section EntryProperties.
Variable W : Type.
Variable respond : forall o : op, W -> outcome (res o) * W.
Variable ctx : JobContext.
Variable w : W.

Local Ltac shapes h :=
  let Ht := fresh "Ht" in
  let Hs := fresh "Hs" in
  run_cases respond ctx w h Ht Hs; rewrite ?Ht, ?Hs in *; clear Ht Hs.

(** C1, amended.  In every run the operations are those of the bootstrap
    sequence, in its order, up to the first one that does not return:
    connect the context and await it, construct the agent, construct the
    three providers and then the session, start the session on that agent
    and the context's room and await it, say the greeting.  When every
    operation returns the log is the whole sequence.  In every run a session
    start comes after the connect call and its fulfilled await, and a
    session construction comes after the construction of the three
    providers it is given. *)
Theorem entry_steps_in_order :
  (exists h : handles,
      log_of respond ctx w = answers ctx h \/
      exists (n : nat) (out : outcome value),
        returned out = false /\ stops_at ctx h n out (log_of respond ctx w)) /\
  (all_returned (log_of respond ctx w) = true ->
   performs_all_steps ctx (log_of respond ctx w)) /\
  (forall pre ev post s o,
      log_of respond ctx w = pre ++ ev :: post ->
      ev_op ev = SessionStart s o ->
      exists p pre',
        pre = Ev (CtxConnect ctx) (Returned (VPromise p))
                :: Ev (Await p) (Returned VUndefined) :: pre') /\
  (forall pre ev post o,
      log_of respond ctx w = pre ++ ev :: post ->
      ev_op ev = NewAgentSession o ->
      exists s l t,
        o = {| stt := Some s; llm := Some l; tts := Some t |} /\
        In (Ev (NewSTT None) (Returned (VSTT s))) pre /\
        In (Ev (NewLLM (Some {| model := "gpt-4" |})) (Returned (VLLM l))) pre /\
        In (Ev (NewTTS None) (Returned (VTTS t))) pre).
Proof.
  split; [| split; [| split]].
  - destruct (entry_run_cases W respond ctx w)
      as [h [[Ht _] | [(n & o & e & Hn & Ht & _) | (n & o & Hn & Ht & _)]]];
      exists h.
    + left. exact Ht.
    + right. exists n, (Threw e). split; [reflexivity |].
      exists o. split; assumption.
    + right. exists n, Pending. split; [reflexivity |].
      exists o. split; assumption.
  - intros Hok.
    shapes h; first [ exists h; reflexivity | discriminate Hok ].
  - intros pre ev post s o Hcut Hop.
    shapes h;
      cut_log Hcut ltac:(cbn in Hop; try discriminate Hop;
                         eexists _, _; reflexivity).
  - intros pre ev post o Hcut Hop.
    shapes h;
      cut_log Hcut ltac:(cbn in Hop; try discriminate Hop;
                         injection Hop as <-;
                         eexists _, _, _; cbn; auto 12).
Qed.

(** C2.  In a run that succeeds (the promise of [entry] is fulfilled, so
    the connect call resolved), the agent is constructed with the
    instructions "You are a helpful voice assistant. Keep responses
    concise.", [start] is called on the constructed session with exactly
    that agent and the context's room, and [say] is called on it with the
    text "Hello! How can I help you today?"; no other agent construction,
    start or say occurs. *)
Theorem successful_run_calls :
  outcome_of respond ctx w = Returned tt ->
  exists a sess p sh,
    In (Ev (NewAgent
              {| instructions :=
                   "You are a helpful voice assistant. Keep responses concise." |})
           (Returned (VAgent a))) (log_of respond ctx w) /\
    (exists o, In (Ev (NewAgentSession o) (Returned (VSession sess)))
                  (log_of respond ctx w)) /\
    In (Ev (SessionStart sess {| agent := a; start_room := room ctx |})
           (Returned (VPromise p))) (log_of respond ctx w) /\
    In (Ev (SessionSay sess "Hello! How can I help you today?")
           (Returned (VSpeech sh))) (log_of respond ctx w) /\
    (forall o, In (NewAgent o) (ops (log_of respond ctx w)) ->
               instructions o =
               "You are a helpful voice assistant. Keep responses concise.") /\
    (forall s o, In (SessionStart s o) (ops (log_of respond ctx w)) ->
                 s = sess /\ o = {| agent := a; start_room := room ctx |}) /\
    (forall s t, In (SessionSay s t) (ops (log_of respond ctx w)) ->
                 s = sess /\ t = "Hello! How can I help you today?").
Proof.
  intros Hdone. shapes h; try discriminate Hdone.
  exists (the_agent h), (the_session h), (starting h), (the_speech h).
  split; [cbn; auto 12 |]. split; [eexists; cbn; eauto 12 |].
  split; [cbn; auto 12 |]. split; [cbn; auto 12 |].
  split; [| split].
  - intros o Hin.
    each_member Hin ltac:(try discriminate Hin; inversion Hin; reflexivity).
  - intros s o Hin.
    each_member Hin ltac:(try discriminate Hin; inversion Hin; auto).
  - intros s t Hin.
    each_member Hin ltac:(try discriminate Hin; inversion Hin; auto).
Qed.

(** C3.  In every run, a session is constructed with one STT provider, one
    LLM provider and one TTS provider under the keys [stt], [llm] and
    [tts]: the providers constructed before it are exactly these three, in
    this order, the STT and the TTS provider constructed without an options
    argument and the LLM provider with the model name "gpt-4"; and no
    provider is constructed after it. *)
Theorem session_gets_one_provider_of_each_kind :
  forall pre ev post o,
    log_of respond ctx w = pre ++ ev :: post ->
    ev_op ev = NewAgentSession o ->
    exists s l t,
      o = {| stt := Some s; llm := Some l; tts := Some t |} /\
      filter (fun x => is_provider (ev_op x)) pre =
        [ Ev (NewSTT None) (Returned (VSTT s));
          Ev (NewLLM (Some {| model := "gpt-4" |})) (Returned (VLLM l));
          Ev (NewTTS None) (Returned (VTTS t)) ] /\
      filter (fun x => is_provider (ev_op x)) post = [].
Proof.
  intros pre ev post o Hcut Hop.
  shapes h;
    cut_log Hcut ltac:(cbn in Hop; try discriminate Hop;
                       injection Hop as <-;
                       eexists _, _, _; repeat split; reflexivity).
Qed.

(** C4, amended.  In every run the greeting is enqueued at most once; it is
    enqueued exactly once when the session start call returned and the
    await on its promise was fulfilled; and every [say] comes right after
    a session start call and the fulfilled await on the promise that call
    returned. *)
Theorem greeting_once_after_start :
  count is_say (log_of respond ctx w) <= 1 /\
  (forall pre s o p post,
      log_of respond ctx w =
        pre ++ Ev (SessionStart s o) (Returned (VPromise p))
            :: Ev (Await p) (Returned VUndefined) :: post ->
      count is_say (log_of respond ctx w) = 1) /\
  (forall pre ev post,
      log_of respond ctx w = pre ++ ev :: post ->
      is_say (ev_op ev) = true ->
      exists pre' s o p,
        pre = pre' ++ [ Ev (SessionStart s o) (Returned (VPromise p));
                        Ev (Await p) (Returned VUndefined) ]).
Proof.
  split; [| split].
  - shapes h; cbn; lia.
  - intros pre s o p post Hcut.
    shapes h;
      cut_log Hcut ltac:(first [discriminate | reflexivity]).
  - intros pre ev post Hcut Hsay.
    shapes h;
      cut_log Hcut ltac:(cbn in Hsay; try discriminate Hsay;
                         eexists (firstn 7 (answers ctx h)), _, _, _;
                         reflexivity).
Qed.

(** C5.  In every run the connect operation is invoked exactly once, on the
    given context, and it is the first operation: the connect calls of the
    log are the single call [ctx.connect()].  A session construction comes
    after it. *)
Theorem connect_once_before_session :
  filter is_connect (ops (log_of respond ctx w)) = [CtxConnect ctx] /\
  hd_error (ops (log_of respond ctx w)) = Some (CtxConnect ctx) /\
  (forall pre ev post o,
      log_of respond ctx w = pre ++ ev :: post ->
      ev_op ev = NewAgentSession o ->
      In (CtxConnect ctx) (ops pre)).
Proof.
  split; [| split].
  - shapes h; reflexivity.
  - shapes h; reflexivity.
  - intros pre ev post o Hcut Hop.
    shapes h;
      cut_log Hcut ltac:(cbn in Hop; try discriminate Hop; cbn; auto).
Qed.

(** C7.  The body of [entry] has no [try] on any path, and in every run an
    operation that throws is the last operation of the run and the promise
    of [entry] is rejected with what it threw: nothing is caught, retried or
    replaced.  Conversely the promise is rejected only with what the last
    operation threw. *)
Theorem failures_propagate :
  handler_free (entry ctx) /\
  (forall pre ev post e,
      log_of respond ctx w = pre ++ ev :: post ->
      ev_out ev = Threw e ->
      post = [] /\ outcome_of respond ctx w = Threw e) /\
  (forall e,
      outcome_of respond ctx w = Threw e ->
      exists pre o, log_of respond ctx w = pre ++ [Ev o (Threw e)]).
Proof.
  split; [| split].
  - unfold entry; cbn [bind call].
    repeat (apply hf_vis; intros ?). apply hf_ret.
  - intros pre ev post e Hcut Hout.
    shapes h;
      cut_log Hcut ltac:(cbn in Hout; try discriminate Hout;
                         injection Hout as <-; split; reflexivity).
  - intros e Hout.
    shapes h; try discriminate Hout; injection Hout as <-;
      match goal with
      | |- exists pre o, ?tr = _ =>
          exists (removelast tr); eexists; reflexivity
      end.
Qed.

(** C8.  In every run nothing is performed after an operation that throws.
    In particular, when the connect step fails (the call throws, or the
    await on its promise is rejected) the log holds nothing but that step:
    no agent, no session and no utterance is created; and when the start
    step fails (the call throws, or the await on its promise is rejected)
    the greeting is not enqueued. *)
Theorem failed_step_ends_run :
  (forall pre ev post e,
      log_of respond ctx w = pre ++ ev :: post ->
      ev_out ev = Threw e ->
      post = []) /\
  (forall e post,
      (log_of respond ctx w = Ev (CtxConnect ctx) (Threw e) :: post \/
       exists p,
         log_of respond ctx w =
           Ev (CtxConnect ctx) (Returned (VPromise p))
             :: Ev (Await p) (Threw e) :: post) ->
      (forall o, In o (ops (log_of respond ctx w)) ->
                 is_connect o || is_await o = true) /\
      count is_agent (log_of respond ctx w) = 0 /\
      count is_session (log_of respond ctx w) = 0 /\
      count is_say (log_of respond ctx w) = 0) /\
  (forall pre s o e post,
      (log_of respond ctx w = pre ++ Ev (SessionStart s o) (Threw e) :: post \/
       exists p,
         log_of respond ctx w =
           pre ++ Ev (SessionStart s o) (Returned (VPromise p))
               :: Ev (Await p) (Threw e) :: post) ->
      count is_say (log_of respond ctx w) = 0).
Proof.
  split; [| split].
  - intros pre ev post e Hcut Hout.
    shapes h;
      cut_log Hcut ltac:(cbn in Hout; try discriminate Hout; reflexivity).
  - intros e post Hfail.
    assert (Hlog : log_of respond ctx w = [Ev (CtxConnect ctx) (Threw e)] \/
                   exists p,
                     log_of respond ctx w =
                       [ Ev (CtxConnect ctx) (Returned (VPromise p));
                         Ev (Await p) (Threw e) ]).
    { destruct Hfail as [H | [p H]]; [left | right; exists p];
        shapes h; try discriminate H; inversion H; subst; reflexivity. }
    destruct Hlog as [-> | [p ->]]; (split; [| repeat split]);
      intros o Hin; each_member Hin ltac:(subst o; reflexivity).
  - intros pre s o e post [Hcut | [p Hcut]];
      shapes h;
      cut_log Hcut ltac:(first [discriminate | reflexivity]).
Qed.

(** C9.  In every run the [say] call is the last operation: nothing is
    awaited or performed after it, and as soon as it returns, whatever
    handle it returns, the promise of [entry] is fulfilled with
    [undefined]. *)
Theorem greeting_not_awaited :
  forall pre ev post,
    log_of respond ctx w = pre ++ ev :: post ->
    is_say (ev_op ev) = true ->
    post = [] /\
    (forall v, ev_out ev = Returned v -> outcome_of respond ctx w = Returned tt).
Proof.
  intros pre ev post Hcut Hsay.
  shapes h;
    cut_log Hcut ltac:(cbn in Hsay;
                       first [ discriminate Hsay
                             | split; [reflexivity | intros v Hv];
                               first [reflexivity | discriminate Hv] ]).
Qed.

(** The configuration values of one run: each list is empty or holds the
    literal of the source, and holds it when the run succeeds. *)
Lemma configuration_of_run :
  (instructions_in (log_of respond ctx w) = [] \/
   instructions_in (log_of respond ctx w) =
     ["You are a helpful voice assistant. Keep responses concise."]) /\
  (models_in (log_of respond ctx w) = [] \/
   models_in (log_of respond ctx w) = ["gpt-4"]) /\
  (greetings_in (log_of respond ctx w) = [] \/
   greetings_in (log_of respond ctx w) = ["Hello! How can I help you today?"]) /\
  (outcome_of respond ctx w = Returned tt ->
   instructions_in (log_of respond ctx w) =
     ["You are a helpful voice assistant. Keep responses concise."] /\
   models_in (log_of respond ctx w) = ["gpt-4"] /\
   greetings_in (log_of respond ctx w) = ["Hello! How can I help you today?"]).
Proof.
  split; [| split; [| split]].
  - shapes h; cbn; auto.
  - shapes h; cbn; auto.
  - shapes h; cbn; auto.
  - intros Hdone; shapes h; try discriminate Hdone.
    repeat split.
Qed.
End EntryProperties.

(** C10.  The instructions given to the agent, the model name given to the
    language model and the text given to [say] are the same in any two
    runs, whatever the two contexts and the two worlds: every such value a
    log shows is the literal of the source, and two runs that succeed show
    the same lists of values. *)
Theorem configuration_independent_of_context
    (W1 W2 : Type)
    (respond1 : forall o : op, W1 -> outcome (res o) * W1)
    (respond2 : forall o : op, W2 -> outcome (res o) * W2)
    (ctx_a ctx_b : JobContext) (w1 : W1) (w2 : W2) :
  (forall x y,
      In x (instructions_in (log_of respond1 ctx_a w1)) ->
      In y (instructions_in (log_of respond2 ctx_b w2)) ->
      x = y /\
      x = "You are a helpful voice assistant. Keep responses concise.") /\
  (forall x y,
      In x (models_in (log_of respond1 ctx_a w1)) ->
      In y (models_in (log_of respond2 ctx_b w2)) ->
      x = y /\ x = "gpt-4") /\
  (forall x y,
      In x (greetings_in (log_of respond1 ctx_a w1)) ->
      In y (greetings_in (log_of respond2 ctx_b w2)) ->
      x = y /\ x = "Hello! How can I help you today?") /\
  (outcome_of respond1 ctx_a w1 = Returned tt ->
   outcome_of respond2 ctx_b w2 = Returned tt ->
   instructions_in (log_of respond1 ctx_a w1) =
     instructions_in (log_of respond2 ctx_b w2) /\
   models_in (log_of respond1 ctx_a w1) =
     models_in (log_of respond2 ctx_b w2) /\
   greetings_in (log_of respond1 ctx_a w1) =
     greetings_in (log_of respond2 ctx_b w2)).
Proof.
  destruct (configuration_of_run W1 respond1 ctx_a w1) as (Hi1 & Hm1 & Hg1 & Hd1).
  destruct (configuration_of_run W2 respond2 ctx_b w2) as (Hi2 & Hm2 & Hg2 & Hd2).
  assert (Hone : forall (l1 l2 : list string) (c x y : string),
             (l1 = [] \/ l1 = [c]) -> (l2 = [] \/ l2 = [c]) ->
             In x l1 -> In y l2 -> x = y /\ x = c).
  { intros l1 l2 c x y [-> | ->] [-> | ->] Hx Hy; cbn in Hx, Hy;
      try contradiction.
    destruct Hx as [<- | []], Hy as [<- | []]. split; reflexivity. }
  split; [| split; [| split]].
  - intros x y. apply Hone; assumption.
  - intros x y. apply Hone; assumption.
  - intros x y. apply Hone; assumption.
  - intros Hs1 Hs2.
    destruct (Hd1 Hs1) as (-> & -> & ->), (Hd2 Hs2) as (-> & -> & ->).
    repeat split.
Qed.

(** ** The guard of the CLI runner *)

Lemma is_main_spec (env : ModuleEnv) :
  is_main env = true <->
  import_meta_url env = ("file://" ++ argv1_text env)%string.
Proof. unfold is_main. apply String.eqb_eq. Qed.

(** [cli.runApp] is reached exactly when the two texts are equal (and
    [fileURLToPath] returns), and then with the path [fileURLToPath] gave. *)
Lemma main_reaches_cli_iff (fileURLToPath : string -> outcome string)
    (env : ModuleEnv) (o : ServerOptions) :
  main fileURLToPath env = Returned (Some o) <->
  import_meta_url env = ("file://" ++ argv1_text env)%string /\
  fileURLToPath (import_meta_url env) = Returned (agent_file o).
Proof.
  unfold main. rewrite <- is_main_spec.
  destruct (is_main env); [| split; [discriminate | intros [H _]; discriminate H]].
  destruct (fileURLToPath (import_meta_url env)) as [path | e |].
  - split.
    + intros H. injection H as <-. split; reflexivity.
    + intros [_ H]. injection H as ->. destruct o; reflexivity.
  - split; [discriminate | intros [_ H]; discriminate H].
  - split; [discriminate | intros [_ H]; discriminate H].
Qed.

Example plain_path_reaches_cli :
  main (fun _ => Returned "/srv/agent/agent.ts") plain_path_env =
  Returned (Some {| agent_file := "/srv/agent/agent.ts" |}).
Proof. reflexivity. Qed.

Example imported_module_skips_cli (fileURLToPath : string -> outcome string) :
  main fileURLToPath imported_env = Returned None.
Proof. reflexivity. Qed.

(** C6, at the failing input.  Run as the entry file from
    [/srv/voice agent/agent.ts], the module does not reach [cli.runApp]:
    the guard compares [file:///srv/voice%20agent/agent.ts] with
    [file:///srv/voice agent/agent.ts]. *)
Theorem cli_skipped_for_entry_file_in_spaced_directory
    (fileURLToPath : string -> outcome string) :
  is_main encoded_path_env = false /\
  main fileURLToPath encoded_path_env = Returned None.
Proof. split; reflexivity. Qed.

(** * Concrete runs

    The properties above at concrete worlds, and the runs at which the
    unconditional readings of C1 and C4 fail. *)

(** C1 as stated fails where the connection is refused: the run stops after
    the first step. *)
Lemma refused_connection_skips_later_steps :
  ~ performs_all_steps ctx0 (log_of (failing_at 1) ctx0 0).
Proof.
  intros [h H]. vm_compute in H. discriminate H.
Qed.

(** C4 as stated fails where the session start is rejected: the greeting is
    enqueued zero times. *)
Lemma rejected_start_enqueues_no_greeting :
  count is_say (log_of (failing_at 8) ctx0 0) <> 1.
Proof.
  vm_compute. discriminate.
Qed.

(** In the obliging world every operation returns and the log is the whole
    sequence. *)
Lemma entry_steps_in_order_witness :
  all_returned (log_of obliging ctx0 0) = true /\
  performs_all_steps ctx0 (log_of obliging ctx0 0).
Proof.
  split; [reflexivity |].
  apply (proj1 (proj2 (entry_steps_in_order nat obliging ctx0 0))).
  reflexivity.
Defined.

(** The obliging run succeeds, and says the greeting. *)
Lemma successful_run_calls_witness :
  outcome_of obliging ctx0 0 = Returned tt /\
  exists sess sh,
    In (Ev (SessionSay sess "Hello! How can I help you today?")
           (Returned (VSpeech sh)))
       (log_of obliging ctx0 0).
Proof.
  split; [reflexivity |].
  destruct (successful_run_calls nat obliging ctx0 0 eq_refl)
    as (a & sess & p & sh & _ & _ & _ & Hsay & _).
  exists sess, sh. exact Hsay.
Defined.

(** The session construction of the obliging run, seventh in its log. *)
Lemma session_gets_one_provider_of_each_kind_witness :
  log_of obliging ctx0 0 =
    firstn 6 (answers ctx0 h0) ++ session0 :: skipn 7 (answers ctx0 h0) /\
  ev_op session0 =
    NewAgentSession
      {| stt := Some (STTRef 3); llm := Some (LLMRef 4); tts := Some (TTSRef 5) |} /\
  exists s l t,
    {| stt := Some (STTRef 3); llm := Some (LLMRef 4); tts := Some (TTSRef 5) |} =
      {| stt := Some s; llm := Some l; tts := Some t |} /\
    filter (fun x => is_provider (ev_op x)) (firstn 6 (answers ctx0 h0)) =
      [ Ev (NewSTT None) (Returned (VSTT s));
        Ev (NewLLM (Some {| model := "gpt-4" |})) (Returned (VLLM l));
        Ev (NewTTS None) (Returned (VTTS t)) ] /\
    filter (fun x => is_provider (ev_op x)) (skipn 7 (answers ctx0 h0)) = [].
Proof.
  split; [reflexivity |]. split; [reflexivity |].
  apply (session_gets_one_provider_of_each_kind nat obliging ctx0 0
           (firstn 6 (answers ctx0 h0)) session0 (skipn 7 (answers ctx0 h0)));
    reflexivity.
Defined.

(** The obliging run awaits the session start to completion and enqueues
    the greeting once. *)
Lemma greeting_once_after_start_witness :
  log_of obliging ctx0 0 =
    firstn 7 (answers ctx0 h0)
      ++ start0 :: Ev (Await (PromiseRef 7)) (Returned VUndefined)
      :: skipn 9 (answers ctx0 h0) /\
  count is_say (log_of obliging ctx0 0) = 1.
Proof.
  split; [reflexivity |].
  apply (proj1 (proj2 (greeting_once_after_start nat obliging ctx0 0))
           (firstn 7 (answers ctx0 h0))
           (AgentSessionRef 6)
           {| agent := AgentRef 2; start_room := RoomRef 7 |}
           (PromiseRef 7)
           (skipn 9 (answers ctx0 h0)));
    reflexivity.
Defined.

(** The connect call precedes the session construction of the obliging
    run. *)
Lemma connect_once_before_session_witness :
  log_of obliging ctx0 0 =
    firstn 6 (answers ctx0 h0) ++ session0 :: skipn 7 (answers ctx0 h0) /\
  In (CtxConnect ctx0) (ops (firstn 6 (answers ctx0 h0))).
Proof.
  split; [reflexivity |].
  apply (proj2 (proj2 (connect_once_before_session nat obliging ctx0 0))
           (firstn 6 (answers ctx0 h0)) session0 (skipn 7 (answers ctx0 h0))
           {| stt := Some (STTRef 3); llm := Some (LLMRef 4);
              tts := Some (TTSRef 5) |});
    reflexivity.
Defined.

(** A refused connection: the rejection ends the run and is its outcome. *)
Lemma failures_propagate_witness :
  log_of (failing_at 1) ctx0 0 =
    [Ev (CtxConnect ctx0) (Returned (VPromise (PromiseRef 0)))]
      ++ Ev (Await (PromiseRef 0)) (Threw (JsErr "unavailable")) :: [] /\
  @nil event = [] /\
  outcome_of (failing_at 1) ctx0 0 = Threw (JsErr "unavailable").
Proof.
  split; [reflexivity |].
  apply (proj1 (proj2 (failures_propagate nat (failing_at 1) ctx0 0))
           [Ev (CtxConnect ctx0) (Returned (VPromise (PromiseRef 0)))]
           (Ev (Await (PromiseRef 0)) (Threw (JsErr "unavailable")))
           []
           (JsErr "unavailable"));
    reflexivity.
Defined.

(** A rejected session start: no greeting. *)
Lemma failed_step_ends_run_witness :
  log_of (failing_at 8) ctx0 0 =
    firstn 7 (answers ctx0 h0)
      ++ start0 :: Ev (Await (PromiseRef 7)) (Threw (JsErr "unavailable")) :: [] /\
  count is_say (log_of (failing_at 8) ctx0 0) = 0.
Proof.
  split; [reflexivity |].
  apply (proj2 (proj2 (failed_step_ends_run nat (failing_at 8) ctx0 0))
           (firstn 7 (answers ctx0 h0))
           (AgentSessionRef 6)
           {| agent := AgentRef 2; start_room := RoomRef 7 |}
           (JsErr "unavailable")
           []).
  right. exists (PromiseRef 7). reflexivity.
Defined.

(** The [say] call of the obliging run is the last event of its log, and
    the run is fulfilled. *)
Lemma greeting_not_awaited_witness :
  log_of obliging ctx0 0 = firstn 9 (answers ctx0 h0) ++ say0 :: [] /\
  is_say (ev_op say0) = true /\
  @nil event = [] /\
  (forall v, ev_out say0 = Returned v -> outcome_of obliging ctx0 0 = Returned tt).
Proof.
  split; [reflexivity |]. split; [reflexivity |].
  apply (greeting_not_awaited nat obliging ctx0 0
           (firstn 9 (answers ctx0 h0)) say0 []);
    reflexivity.
Defined.

(** Two successful runs, on two contexts and in two worlds, the second of
    which hands out its objects from 5 on. *)
Lemma configuration_independent_of_context_witness :
  outcome_of obliging ctx0 0 = Returned tt /\
  outcome_of (hanging_at 0) ctx1 5 = Returned tt /\
  instructions_in (log_of obliging ctx0 0) =
    instructions_in (log_of (hanging_at 0) ctx1 5) /\
  models_in (log_of obliging ctx0 0) =
    models_in (log_of (hanging_at 0) ctx1 5) /\
  greetings_in (log_of obliging ctx0 0) =
    greetings_in (log_of (hanging_at 0) ctx1 5).
Proof.
  split; [reflexivity |]. split; [reflexivity |].
  apply (proj2 (proj2 (proj2
           (configuration_independent_of_context nat nat obliging
              (hanging_at 0) ctx0 ctx1 0 5))));
    reflexivity.
Defined.

(** * Further properties of the entry function

    What the code shows beyond C1-C10: which promises are awaited, what a
    promise that never settles does to the run, when the promise of [entry]
    is fulfilled, how many objects a run creates, and which objects [start]
    and [say] are called on. *)

Section EntryFurther.
Variable W : Type.
Variable respond : forall o : op, W -> outcome (res o) * W.
Variable ctx : JobContext.
Variable w : W.

Local Ltac shapes h :=
  let Ht := fresh "Ht" in
  let Hs := fresh "Hs" in
  run_cases respond ctx w h Ht Hs; rewrite ?Ht, ?Hs in *; clear Ht Hs.

(** X1.  In every run an await is on the promise returned by the call right
    before it, and that call is [ctx.connect()] or [session.start(..)];
    there are at most two awaits. *)
Theorem awaits_only_call_promises :
  count is_await (log_of respond ctx w) <= 2 /\
  (forall pre ev post p,
      log_of respond ctx w = pre ++ ev :: post ->
      ev_op ev = Await p ->
      exists pre' c,
        pre = pre' ++ [Ev c (Returned (VPromise p))] /\
        (c = CtxConnect ctx \/ exists s o, c = SessionStart s o)).
Proof.
  split.
  - shapes h; cbn; lia.
  - intros pre ev post p Hcut Hop.
    shapes h;
      cut_log Hcut
        ltac:(cbn in Hop;
              first
                [ discriminate Hop
                | injection Hop as <-;
                  match goal with
                  | |- exists pre' c, ?l = _ /\ _ =>
                      exists (removelast l); eexists; split; [reflexivity |]
                  end;
                  first [ left; reflexivity
                        | right; eexists _, _; reflexivity ] ]).
Qed.


(** X3.  The promise of [entry] is fulfilled exactly when every operation
    of the run returned, which is exactly when the log is the whole
    bootstrap sequence, and exactly when [say] was called and returned. *)
Theorem fulfilled_iff_all_returned :
  (outcome_of respond ctx w = Returned tt <->
   all_returned (log_of respond ctx w) = true) /\
  (outcome_of respond ctx w = Returned tt <->
   performs_all_steps ctx (log_of respond ctx w)) /\
  (outcome_of respond ctx w = Returned tt <->
   exists s t sh,
     In (Ev (SessionSay s t) (Returned (VSpeech sh))) (log_of respond ctx w)).
Proof.
  split; [| split]; split.
  - intros Hout. shapes h; first [discriminate Hout | reflexivity].
  - intros Hok. shapes h; first [discriminate Hok | reflexivity].
  - intros Hout.
    shapes h; first [discriminate Hout | exists h; reflexivity].
  - intros [h' Hall].
    shapes h; first [reflexivity | discriminate Hall].
  - intros Hout.
    shapes h; first [discriminate Hout | eexists _, _, _; cbn; auto 12].
  - intros (s & t & sh & Hin).
    shapes h;
      first [reflexivity | each_member Hin ltac:(discriminate Hin)].
Qed.

(** X4.  A run performs between one and ten operations and creates at most
    one agent, three providers and one session, and starts a session at
    most once. *)
Theorem run_creates_each_object_at_most_once :
  1 <= length (log_of respond ctx w) <= 10 /\
  count is_agent (log_of respond ctx w) <= 1 /\
  count is_provider (log_of respond ctx w) <= 3 /\
  count is_session (log_of respond ctx w) <= 1 /\
  count is_start (log_of respond ctx w) <= 1.
Proof.
  shapes h; cbn; repeat split; lia.
Qed.

(** X5.  In every run, also one in which the call then throws, [start] is
    called on the session the session constructor returned, with the agent
    the agent constructor returned (built with the literal instructions)
    and the room of the context. *)
Theorem start_binds_constructed_objects :
  forall pre ev post s o,
    log_of respond ctx w = pre ++ ev :: post ->
    ev_op ev = SessionStart s o ->
    exists a so,
      In (Ev (NewAgent
                {| instructions :=
                     "You are a helpful voice assistant. Keep responses concise." |})
             (Returned (VAgent a))) pre /\
      In (Ev (NewAgentSession so) (Returned (VSession s))) pre /\
      o = {| agent := a; start_room := room ctx |}.
Proof.
  intros pre ev post s o Hcut Hop.
  shapes h;
    cut_log Hcut ltac:(cbn in Hop;
                       first [ discriminate Hop
                             | injection Hop as <- <-;
                               eexists _, _; cbn; repeat split; auto 12 ]).
Qed.

(** X6.  In every run, also one in which the call then throws, [say] is
    called with the literal greeting on the session that the session
    constructor returned and on which [start] was called and returned. *)
Theorem say_targets_started_session :
  forall pre ev post s t,
    log_of respond ctx w = pre ++ ev :: post ->
    ev_op ev = SessionSay s t ->
    t = "Hello! How can I help you today?" /\
    exists so o p,
      In (Ev (NewAgentSession so) (Returned (VSession s))) pre /\
      In (Ev (SessionStart s o) (Returned (VPromise p))) pre.
Proof.
  intros pre ev post s t Hcut Hop.
  shapes h;
    cut_log Hcut ltac:(cbn in Hop;
                       first [ discriminate Hop
                             | injection Hop as <- <-;
                               split; [reflexivity |];
                               eexists _, _, _; cbn; split; auto 12 ]).
Qed.
End EntryFurther.

(** * Further properties of the guard of the CLI runner *)

(** X7.  When the URL of the module is [file://] followed by a path [p]
    as it is, and [process.argv[1]] is [q], the guard holds exactly when
    [q] is [p]: a different entry file skips [cli.runApp], and the same
    file reaches it with the path [fileURLToPath] returns. *)
Theorem guard_exact_on_unencoded_url
    (fileURLToPath : string -> outcome string) (env : ModuleEnv) (p q : string) :
  import_meta_url env = ("file://" ++ p)%string ->
  nth_error (argv env) 1 = Some q ->
  (is_main env = true <-> q = p) /\
  (q <> p -> main fileURLToPath env = Returned None) /\
  (q = p ->
   forall path,
     fileURLToPath (import_meta_url env) = Returned path ->
     main fileURLToPath env = Returned (Some {| agent_file := path |})).
Proof.
  intros Hurl Hargv.
  assert (Hiff : is_main env = true <-> q = p).
  { rewrite is_main_spec. unfold argv1_text. rewrite Hurl, Hargv. cbn.
    split.
    - intros H. injection H as H. symmetry. exact H.
    - intros ->. reflexivity. }
  split; [exact Hiff |]. split.
  - intros Hne. unfold main.
    destruct (is_main env); [| reflexivity].
    exfalso. apply Hne, Hiff. reflexivity.
  - intros Heq path Hpath. unfold main.
    rewrite (proj2 Hiff Heq), Hpath. reflexivity.
Qed.

(** X8.  When [process.argv] has no second entry the guard compares the
    URL of the module with the text [file://undefined]: [cli.runApp] is
    skipped for every other URL. *)
Theorem guard_without_script_path
    (fileURLToPath : string -> outcome string) (env : ModuleEnv) :
  length (argv env) <= 1 ->
  (is_main env = true <-> import_meta_url env = "file://undefined") /\
  (import_meta_url env <> "file://undefined" ->
   main fileURLToPath env = Returned None).
Proof.
  intros Hlen.
  assert (Hiff : is_main env = true <-> import_meta_url env = "file://undefined").
  { rewrite is_main_spec. unfold argv1_text.
    rewrite (proj2 (nth_error_None (argv env) 1) Hlen). reflexivity. }
  split; [exact Hiff |].
  intros Hne. unfold main.
  destruct (is_main env); [| reflexivity].
  exfalso. apply Hne, Hiff. reflexivity.
Qed.

(** X9.  [cli.runApp] is skipped whenever the URL of the module does not
    begin with [file://] or is not exactly seven characters longer than
    the text of [process.argv[1]]. *)
Theorem guard_skips_on_shape_mismatch
    (fileURLToPath : string -> outcome string) (env : ModuleEnv) :
  String.prefix "file://" (import_meta_url env) = false \/
  String.length (import_meta_url env) <> 7 + String.length (argv1_text env) ->
  main fileURLToPath env = Returned None.
Proof.
  intros Hshape. unfold main.
  destruct (is_main env) eqn:Hmain; [| reflexivity].
  exfalso. apply is_main_spec in Hmain.
  destruct Hshape as [Hpre | Hlen].
  - rewrite Hmain in Hpre. cbn in Hpre.
    destruct (argv1_text env); discriminate Hpre.
  - apply Hlen. rewrite Hmain. reflexivity.
Qed.

(** * Concrete runs and environments for the further properties *)

(** The second await of the obliging run is on the promise [start]
    returned. *)
Lemma awaits_only_call_promises_witness :
  log_of obliging ctx0 0 =
    firstn 8 (answers ctx0 h0)
      ++ Ev (Await (PromiseRef 7)) (Returned VUndefined)
      :: skipn 9 (answers ctx0 h0) /\
  exists pre' c,
    firstn 8 (answers ctx0 h0) = pre' ++ [Ev c (Returned (VPromise (PromiseRef 7)))] /\
    (c = CtxConnect ctx0 \/ exists s o, c = SessionStart s o).
Proof.
  split; [reflexivity |].
  apply (proj2 (awaits_only_call_promises nat obliging ctx0 0)
           (firstn 8 (answers ctx0 h0))
           (Ev (Await (PromiseRef 7)) (Returned VUndefined))
           (skipn 9 (answers ctx0 h0))
           (PromiseRef 7));
    reflexivity.
Defined.


(** Every operation of the obliging run returned, and it is fulfilled. *)
Lemma fulfilled_iff_all_returned_witness :
  all_returned (log_of obliging ctx0 0) = true /\
  outcome_of obliging ctx0 0 = Returned tt.
Proof.
  split; [reflexivity |].
  apply (proj2 (proj1 (fulfilled_iff_all_returned nat obliging ctx0 0))).
  reflexivity.
Defined.

(** The start call of a run in which that call throws. *)
Lemma start_binds_constructed_objects_witness :
  log_of (failing_at 7) ctx0 0 =
    firstn 7 (answers ctx0 h0)
      ++ Ev (SessionStart (AgentSessionRef 6)
               {| agent := AgentRef 2; start_room := RoomRef 7 |})
            (Threw (JsErr "unavailable"))
      :: [] /\
  exists a so,
    In (Ev (NewAgent
              {| instructions :=
                   "You are a helpful voice assistant. Keep responses concise." |})
           (Returned (VAgent a))) (firstn 7 (answers ctx0 h0)) /\
    In (Ev (NewAgentSession so) (Returned (VSession (AgentSessionRef 6))))
       (firstn 7 (answers ctx0 h0)) /\
    {| agent := AgentRef 2; start_room := RoomRef 7 |} =
      {| agent := a; start_room := room ctx0 |}.
Proof.
  split; [reflexivity |].
  apply (start_binds_constructed_objects nat (failing_at 7) ctx0 0
           (firstn 7 (answers ctx0 h0))
           (Ev (SessionStart (AgentSessionRef 6)
                  {| agent := AgentRef 2; start_room := RoomRef 7 |})
               (Threw (JsErr "unavailable")))
           []);
    reflexivity.
Defined.

(** The say call of a run in which that call throws. *)
Lemma say_targets_started_session_witness :
  log_of (failing_at 9) ctx0 0 =
    firstn 9 (answers ctx0 h0)
      ++ Ev (SessionSay (AgentSessionRef 6) "Hello! How can I help you today?")
            (Threw (JsErr "unavailable"))
      :: [] /\
  "Hello! How can I help you today?" = "Hello! How can I help you today?" /\
  exists so o p,
    In (Ev (NewAgentSession so) (Returned (VSession (AgentSessionRef 6))))
       (firstn 9 (answers ctx0 h0)) /\
    In (Ev (SessionStart (AgentSessionRef 6) o) (Returned (VPromise p)))
       (firstn 9 (answers ctx0 h0)).
Proof.
  split; [reflexivity |].
  apply (say_targets_started_session nat (failing_at 9) ctx0 0
           (firstn 9 (answers ctx0 h0))
           (Ev (SessionSay (AgentSessionRef 6) "Hello! How can I help you today?")
               (Threw (JsErr "unavailable")))
           []);
    reflexivity.
Defined.

(** The module imported by the entry file [/srv/agent/server.ts]. *)
Lemma guard_exact_on_unencoded_url_witness :
  import_meta_url imported_env = ("file://" ++ "/srv/agent/agent.ts")%string /\
  nth_error (argv imported_env) 1 = Some "/srv/agent/server.ts" /\
  "/srv/agent/server.ts" <> "/srv/agent/agent.ts" /\
  main (fun url => Returned url) imported_env = Returned None.
Proof.
  split; [reflexivity |]. split; [reflexivity |].
  assert (Hne : "/srv/agent/server.ts" <> "/srv/agent/agent.ts")
    by (intros H; discriminate H).
  split; [exact Hne |].
  apply (proj1 (proj2 (guard_exact_on_unencoded_url (fun url => Returned url)
                         imported_env "/srv/agent/agent.ts"
                         "/srv/agent/server.ts" eq_refl eq_refl))).
  exact Hne.
Defined.

(** No script path, and a URL other than [file://undefined]. *)
Lemma guard_without_script_path_witness :
  length (argv bare_env) <= 1 /\
  import_meta_url bare_env <> "file://undefined" /\
  main (fun url => Returned url) bare_env = Returned None.
Proof.
  assert (Hlen : length (argv bare_env) <= 1) by (cbn; lia).
  assert (Hne : import_meta_url bare_env <> "file://undefined")
    by (intros H; discriminate H).
  split; [exact Hlen |]. split; [exact Hne |].
  apply (proj2 (guard_without_script_path (fun url => Returned url) bare_env Hlen)).
  exact Hne.
Defined.

(** A URL that is two characters longer than the guard expects. *)
Lemma guard_skips_on_shape_mismatch_witness :
  String.length (import_meta_url encoded_path_env) <>
    7 + String.length (argv1_text encoded_path_env) /\
  main (fun url => Returned url) encoded_path_env = Returned None.
Proof.
  assert (Hlen : String.length (import_meta_url encoded_path_env) <>
                 7 + String.length (argv1_text encoded_path_env))
    by (intros H; vm_compute in H; discriminate H).
  split; [exact Hlen |].
  apply (guard_skips_on_shape_mismatch (fun url => Returned url) encoded_path_env).
  right. exact Hlen.
Defined.
